(** * CelestialProjection: sub-solar point computation (WebWorldWind)

    A shallow embedding of [src/util/CelestialProjection.js] and the
    verification of its specification.

    Number model.  JavaScript numbers are IEEE-754 doubles.  In the main
    embedding a number is either a real ([Real x], arithmetic is exact) or
    [NaN]: rounding, overflow to an infinity and signed zeros are not
    represented, and what is proved of it is proved of this exact arithmetic.
    Where the difference decides a property, the arithmetic of the program is
    taken as it runs: module [Binary64] embeds the functions that need no
    trigonometry on primitive binary64 floats.  There [normalizeAngle]
    returns 360 for a negative angle of very small magnitude, and the sidereal
    time of [celestialToGeographic] overflows for Julian dates beyond about
    4.9e305. *)

From Stdlib Require PrimFloat.
From Stdlib Require Import Reals Lra Lia ZArith String Bool.

#[local] Open Scope R_scope.

(* ================================================================== *)
(** * Part I -- the embedding                                          *)
(* ================================================================== *)

(** ** Numbers *)

Inductive Number : Type :=
| Real (x : R)
| NaN.

Declare Scope js_scope.
Delimit Scope js_scope with js.
Bind Scope js_scope with Number.

Coercion Real : R >-> Number.

Module Num.

Definition lift1 (f : R -> R) (a : Number) : Number :=
  match a with
  | Real x => Real (f x)
  | NaN => NaN
  end.

Definition lift2 (f : R -> R -> R) (a b : Number) : Number :=
  match a, b with
  | Real x, Real y => Real (f x y)
  | _, _ => NaN
  end.

Definition add := lift2 Rplus.
Definition sub := lift2 Rminus.
Definition mul := lift2 Rmult.

(** The quotient of two finite numbers; a zero divisor (which JavaScript
    answers with an infinity or NaN) does not occur in this program and is
    mapped to [NaN]. *)
Definition div (a b : Number) : Number :=
  match a, b with
  | Real x, Real y => if Req_dec_T y 0 then NaN else Real (x / y)
  | _, _ => NaN
  end.

Definition neg := lift1 Ropp.

(** Comparisons: every comparison with [NaN] is false. *)
Definition leb (a b : Number) : bool :=
  match a, b with
  | Real x, Real y => if Rle_dec x y then true else false
  | _, _ => false
  end.

Definition ltb (a b : Number) : bool :=
  match a, b with
  | Real x, Real y => if Rlt_dec x y then true else false
  | _, _ => false
  end.

Definition geb (a b : Number) : bool := leb b a.

(** ToBoolean on a number: [0] and [NaN] are falsy. *)
Definition truthy (a : Number) : bool :=
  match a with
  | Real x => if Req_dec_T x 0 then false else true
  | NaN => false
  end.

End Num.

Infix "+" := Num.add : js_scope.
Infix "-" := Num.sub : js_scope.
Infix "*" := Num.mul : js_scope.
Infix "/" := Num.div : js_scope.
Notation "- x" := (Num.neg x) : js_scope.
Infix "<=?" := Num.leb : js_scope.
Infix "<?" := Num.ltb : js_scope.
Infix ">=?" := Num.geb (at level 70) : js_scope.

(** ** The Math object *)

Module Math.

Definition floor (a : Number) : Number := Num.lift1 (fun x => IZR (Zfloor x)) a.
Definition sin : Number -> Number := Num.lift1 Rtrigo_def.sin.
Definition cos : Number -> Number := Num.lift1 Rtrigo_def.cos.

(** [Rtrigo1.tan] is total; at the odd multiples of a quarter turn, where
    the tangent has a pole, its value is arbitrary. *)
Definition tan : Number -> Number := Num.lift1 Rtrigo1.tan.
Definition atan : Number -> Number := Num.lift1 Ratan.atan.

(** [Math.asin] is [NaN] outside [-1, 1]. *)
Definition asin (a : Number) : Number :=
  match a with
  | Real x =>
      if Rle_dec (-1) x then
        if Rle_dec x 1 then Real (Ratan.asin x) else NaN
      else NaN
  | NaN => NaN
  end.

End Math.

(** ** The built-in Date (ECMA-262, "Time Values and Time Range")

    A Date object holds a time value: an integral number of milliseconds since
    1970-01-01T00:00:00Z, or NaN (an invalid Date, [None] here).  The UTC
    getters are the abstract operations of the language standard. *)

Module ES.

#[local] Open Scope Z_scope.

Definition msPerSecond : Z := 1000.
Definition msPerMinute : Z := 60000.
Definition msPerHour : Z := 3600000.
Definition msPerDay : Z := 86400000.

Definition Day (t : Z) : Z := t / msPerDay.

Definition DayFromYear (y : Z) : Z :=
  365 * (y - 1970) + (y - 1969) / 4 - (y - 1901) / 100 + (y - 1601) / 400.

Definition isLeapYear (y : Z) : bool :=
  if negb (y mod 4 =? 0) then false
  else if negb (y mod 100 =? 0) then true
  else if negb (y mod 400 =? 0) then false
  else true.

Definition DaysInYear (y : Z) : Z := if isLeapYear y then 366 else 365.

(** The year of a day number: the largest [y] with [DayFromYear y <= d].
    It is found from the estimate [1970 + d / 365.2425], which is off by
    one at most. *)
Definition YearFromDay (d : Z) : Z :=
  let g := 1970 + (d * 400) / 146097 in
  if DayFromYear (g + 1) <=? d then g + 1
  else if DayFromYear g <=? d then g
  else g - 1.

Definition YearFromTime (t : Z) : Z := YearFromDay (Day t).
Definition InLeapYear (t : Z) : Z := if isLeapYear (YearFromTime t) then 1 else 0.
Definition DayWithinYear (t : Z) : Z := Day t - DayFromYear (YearFromTime t).

Definition MonthFromTime (t : Z) : Z :=
  let d := DayWithinYear t in
  let l := InLeapYear t in
  if d <? 31 then 0
  else if d <? 59 + l then 1
  else if d <? 90 + l then 2
  else if d <? 120 + l then 3
  else if d <? 151 + l then 4
  else if d <? 181 + l then 5
  else if d <? 212 + l then 6
  else if d <? 243 + l then 7
  else if d <? 273 + l then 8
  else if d <? 304 + l then 9
  else if d <? 334 + l then 10
  else 11.

Definition DateFromTime (t : Z) : Z :=
  let d := DayWithinYear t in
  let l := InLeapYear t in
  match MonthFromTime t with
  | 0 => d + 1
  | 1 => d - 30
  | 2 => d - 58 - l
  | 3 => d - 89 - l
  | 4 => d - 119 - l
  | 5 => d - 150 - l
  | 6 => d - 180 - l
  | 7 => d - 211 - l
  | 8 => d - 242 - l
  | 9 => d - 272 - l
  | 10 => d - 303 - l
  | _ => d - 333 - l
  end.

Definition HourFromTime (t : Z) : Z := (t / msPerHour) mod 24.
Definition MinFromTime (t : Z) : Z := (t / msPerMinute) mod 60.
Definition SecFromTime (t : Z) : Z := (t / msPerSecond) mod 60.

(** The largest and smallest time value of a Date (100,000,000 days on
    either side of the epoch). *)
Definition maxTime : Z := 8640000000000000.
Definition validTime (t : Z) : Prop := - maxTime <= t <= maxTime.

End ES.

(** A Date object: [Some t] is a valid Date with time value [t]. *)
Definition Date : Type := option Z.

Definition dateField (f : Z -> Z) (d : Date) : Number :=
  match d with
  | Some t => Real (IZR (f t))
  | None => NaN
  end.

Definition getUTCFullYear : Date -> Number := dateField ES.YearFromTime.
Definition getUTCMonth : Date -> Number := dateField ES.MonthFromTime.
Definition getUTCDate : Date -> Number := dateField ES.DateFromTime.
Definition getUTCHours : Date -> Number := dateField ES.HourFromTime.
Definition getUTCMinutes : Date -> Number := dateField ES.MinFromTime.
Definition getUTCSeconds : Date -> Number := dateField ES.SecFromTime.

(** ** Values *)

Record CelestialLocation : Type := mkCelestial {
  declination : Number;
  rightAscension : Number
}.

(** The values the functions are applied to: [undefined], [null], booleans,
    numbers, Date objects and objects with the two properties of a celestial
    location.  Strings, BigInts, Symbols and other objects (among them
    objects whose conversion to a number throws) are not represented: a
    statement about every [JSValue] is a statement about these six kinds. *)
Inductive JSValue : Type :=
| JSUndefined
| JSNull
| JSBool (b : bool)
| JSNumber (n : Number)
| JSDate (d : Date)
| JSCelestial (c : CelestialLocation).

(** [v == null] *)
Definition eq_null (v : JSValue) : bool :=
  match v with
  | JSUndefined | JSNull => true
  | _ => false
  end.

(** ToBoolean; [!v] is [negb (truthy v)]. *)
Definition truthy (v : JSValue) : bool :=
  match v with
  | JSUndefined | JSNull => false
  | JSBool b => b
  | JSNumber n => Num.truthy n
  | JSDate _ | JSCelestial _ => true
  end.

(** ToNumber, as the arithmetic operators apply it to an operand. *)
Definition ToNumber (v : JSValue) : Number :=
  match v with
  | JSUndefined => NaN
  | JSNull => Real 0
  | JSBool b => if b then Real 1 else Real 0
  | JSNumber n => n
  | JSDate d => dateField (fun t => t) d
  | JSCelestial _ => NaN
  end.

(** Property reads [v.declination] and [v.rightAscension]: [undefined] on a
    value that has no such property. *)
Definition get_declination (v : JSValue) : JSValue :=
  match v with
  | JSCelestial c => JSNumber (declination c)
  | _ => JSUndefined
  end.

Definition get_rightAscension (v : JSValue) : JSValue :=
  match v with
  | JSCelestial c => JSNumber (rightAscension c)
  | _ => JSUndefined
  end.

(** The object literal [{latitude: ..., longitude: ...}]; the latitude holds
    whatever value was read from the argument. *)
Record GeographicLocation : Type := mkGeographic {
  latitude : JSValue;
  longitude : Number
}.

(** ** Errors *)

(** Modelled from the spec: the diagnostic logging utility ([./Logger]) is
    not part of the source.  The spec says that each error carries a reason
    code paired with the originating function name; the message
    [Logger.logMessage] returns is kept as that structured triple. *)
Module Logger.

Inductive Level : Type := LEVEL_SEVERE.

Record Message : Type := mkMessage {
  className : string;
  functionName : string;
  reason : string
}.

Definition logMessage (level : Level) (cls fn msg : string) : Message :=
  mkMessage cls fn msg.

End Logger.

(** [new ArgumentError(message)] ([../error/ArgumentError]); the spec calls
    it [InvalidArgument]. *)
Inductive Error : Type :=
| ArgumentError (message : Logger.Message).

(** The outcome of a call: a returned value or a thrown error. *)
Inductive Result (A : Type) : Type :=
| Ok (a : A)
| Throw (e : Error).

Arguments Ok {A} a.
Arguments Throw {A} e.

Definition ret {A : Type} (a : A) : Result A := Ok a.

Definition bind {A B : Type} (m : Result A) (k : A -> Result B) : Result B :=
  match m with
  | Ok a => k a
  | Throw e => Throw e
  end.

Notation "x <- m ;; k" := (bind m (fun x => k))
  (at level 61, m at next level, right associativity).

(** ** Angle utilities *)

Module Angle.

(** Modelled from the spec: the angle-unit conversion utility
    ([../geom/Angle]) is not part of the source; the spec gives its
    constants as pi/180 and 180/pi. *)
Definition DEGREES_TO_RADIANS : Number := Real (PI / 180).
Definition RADIANS_TO_DEGREES : Number := Real (180 / PI).

(** Modelled from the spec: [Angle.normalizedDegreesLongitude] is not part
    of the source; the spec says that it maps any angle to the symmetric
    range (-180, 180] by wrap-around.  The representative of [x] modulo 360
    in that range is [x - 360 * ceil((x - 180) / 360)]. *)
Definition normalizedDegreesLongitude (degrees : Number) : Number :=
  Num.lift1 (fun x => x - 360 * IZR (Zceil ((x - 180) / 360))) degrees.

End Angle.

(** ** The module under verification *)

Module CelestialProjection.

#[local] Open Scope string_scope.
#[local] Open Scope js_scope.

Definition missing (fn msg : string) : Error :=
  ArgumentError (Logger.logMessage Logger.LEVEL_SEVERE "CelestialProjection" fn msg).

Definition normalizeAngle (angle : JSValue) : Result Number :=
  if eq_null angle then Throw (missing "normalizeAngle" "missingAngle")
  else
    let angle := ToNumber angle in
    ret (360 * (angle / 360 - Math.floor (angle / 360))).

Definition computeJulianDate (date : JSValue) : Result Number :=
  match date with
  | JSDate date =>
      let year := getUTCFullYear date in
      let month := getUTCMonth date + 1 in
      let day := getUTCDate date in
      let hour := getUTCHours date in
      let minute := getUTCMinutes date in
      let second := getUTCSeconds date in
      let dayFraction := (hour + minute / 60 + second / 3600) / 24 in
      let '(year, month) :=
        if month <=? 2 then (year - 1, month + 12) else (year, month) in
      let A := Math.floor (year / 100) in
      let B := 2 - A + Math.floor (A / 4) in
      let JD0h := Math.floor (365.25 * (year + 4716))
                  + Math.floor (30.6001 * (month + 1)) + day + B - 1524.5 in
      ret (JD0h + dayFraction)
  | _ => Throw (missing "computeJulianDate" "missingDate")
  end.

Definition computeSunCelestialLocation (julianDate : JSValue)
  : Result CelestialLocation :=
  if eq_null julianDate
  then Throw (missing "computeSunCelestialLocation" "missingJulianDate")
  else
    let numDays := ToNumber julianDate - 2451545 in
    meanLongitude <- normalizeAngle (JSNumber (280.460 + 0.9856474 * numDays));;
    meanAnomalyDeg <- normalizeAngle (JSNumber (357.528 + 0.9856003 * numDays));;
    let meanAnomaly := meanAnomalyDeg * Angle.DEGREES_TO_RADIANS in
    let eclipticLongitude :=
      meanLongitude + 1.915 * Math.sin meanAnomaly
      + 0.02 * Math.sin (2 * meanAnomaly) in
    let eclipticLongitudeRad := eclipticLongitude * Angle.DEGREES_TO_RADIANS in
    let obliquityOfTheEcliptic :=
      (23.439 - 0.0000004 * numDays) * Angle.DEGREES_TO_RADIANS in
    let declination :=
      Math.asin (Math.sin obliquityOfTheEcliptic * Math.sin eclipticLongitudeRad)
      * Angle.RADIANS_TO_DEGREES in
    let rightAscension :=
      Math.atan (Math.cos obliquityOfTheEcliptic * Math.tan eclipticLongitudeRad)
      * Angle.RADIANS_TO_DEGREES in
    (* compensate for atan result *)
    let rightAscension :=
      if (eclipticLongitude >=? 90) && (eclipticLongitude <? 270)
      then rightAscension + 180
      else rightAscension in
    rightAscension <- normalizeAngle (JSNumber rightAscension);;
    ret {| declination := declination; rightAscension := rightAscension |}.

Definition celestialToGeographic (celestialLocation julianDate : JSValue)
  : Result GeographicLocation :=
  if negb (truthy celestialLocation)
  then Throw (missing "celestialToGeographic" "missingCelestialLocation")
  else if eq_null julianDate
  then Throw (missing "celestialToGeographic" "missingJulianDate")
  else
    let numDays := ToNumber julianDate - 2451545 in
    (* Greenwich Mean Sidereal Time *)
    GMST <- normalizeAngle (JSNumber (280.46061837 + 360.98564736629 * numDays));;
    (* Greenwich Hour Angle *)
    GHA <- normalizeAngle
             (JSNumber (GMST - ToNumber (get_rightAscension celestialLocation)));;
    let longitude := Angle.normalizedDegreesLongitude (- GHA) in
    ret {| latitude := get_declination celestialLocation;
           longitude := longitude |}.

Definition computeSunGeographicLocation (date : JSValue)
  : Result GeographicLocation :=
  match date with
  | JSDate _ =>
      julianDate <- computeJulianDate date;;
      celestialLocation <- computeSunCelestialLocation (JSNumber julianDate);;
      celestialToGeographic (JSCelestial celestialLocation) (JSNumber julianDate)
  | _ => Throw (missing "computeSunGeographicLocation" "missingDate")
  end.

End CelestialProjection.

(** ** The program in double arithmetic

    The functions that call no trigonometric function, on primitive binary64
    floats with the operations of IEEE-754, for arguments that are numbers
    (the guards pass). *)

Module Binary64.

Import PrimFloat.
#[local] Open Scope float_scope.

Definition two52 : float := 0x1p52.

(** [Math.floor]: a double of magnitude 2^52 or more is an integer; below,
    adding and subtracting 2^52 rounds to a nearest integer, which is the
    floor or one more.  Zeros, infinities and NaN are returned as they are. *)
Definition floor (x : float) : float :=
  if abs x <? two52 then
    if x =? 0 then x
    else
      let r := if 0 <? x then (x + two52) - two52 else (x - two52) + two52 in
      if x <? r then r - 1 else r
  else x.

Definition ceil (x : float) : float := - floor (- x).

Definition normalizeAngle (angle : float) : float :=
  360 * (angle / 360 - floor (angle / 360)).

(** Modelled from the spec: [Angle.normalizedDegreesLongitude] is not part
    of the source; the wrap-around into (-180, 180] of the spec, by the
    formula of [Angle.normalizedDegreesLongitude] above, in double
    arithmetic. *)
Definition normalizedDegreesLongitude (degrees : float) : float :=
  degrees - 360 * ceil ((degrees - 180) / 360).

(** The pair is [(latitude, longitude)]. *)
#[warning="-inexact-float"]
Definition celestialToGeographic (declination rightAscension julianDate : float)
  : float * float :=
  let numDays := julianDate - 2451545 in
  let GMST := normalizeAngle (280.46061837 + 360.98564736629 * numDays) in
  let GHA := normalizeAngle (GMST - rightAscension) in
  let longitude := normalizedDegreesLongitude (- GHA) in
  (declination, longitude).

End Binary64.

(** ** The specification's formulas

    The quantities the specification names, as functions on the reals; the
    theorems of Part II relate them to the embedded program. *)

Module Spec.

(** Section 4.2: [360 * (angle/360 - floor(angle/360))]. *)
Definition normalizeAngle (x : R) : R :=
  360 * (x / 360 - IZR (Zfloor (x / 360))).

(** Section 4.1, from the calendar fields (month 1-12). *)
Definition dayFraction (hour minute second : Z) : R :=
  (IZR hour + IZR minute / 60 + IZR second / 3600) / 24.

Definition isJanuaryOrFebruary (M : Z) : bool := ((M =? 1) || (M =? 2))%Z.

Definition adjustedYear (Y M : Z) : Z :=
  if isJanuaryOrFebruary M then (Y - 1)%Z else Y.

Definition adjustedMonth (M : Z) : Z :=
  if isJanuaryOrFebruary M then (M + 12)%Z else M.

Definition gregorianCorrection (Y : R) : R :=
  2 - IZR (Zfloor (Y / 100)) + IZR (Zfloor (IZR (Zfloor (Y / 100)) / 4)).

Definition JD0h (Y M D : Z) : R :=
  let Y' := IZR (adjustedYear Y M) in
  let M' := IZR (adjustedMonth M) in
  IZR (Zfloor (365.25 * (Y' + 4716))) + IZR (Zfloor (30.6001 * (M' + 1)))
  + IZR D + gregorianCorrection Y' - 1524.5.

Definition julianDate (Y M D hour minute second : Z) : R :=
  JD0h Y M D + dayFraction hour minute second.

(** Section 4.3, steps 1 to 7, and the right ascension of steps 8 and 9. *)
Definition numDays (jd : R) : R := jd - 2451545.

Definition meanLongitude (jd : R) : R :=
  normalizeAngle (280.460 + 0.9856474 * numDays jd).

Definition meanAnomaly (jd : R) : R :=
  normalizeAngle (357.528 + 0.9856003 * numDays jd) * (PI / 180).

Definition eclipticLongitude (jd : R) : R :=
  meanLongitude jd + 1.915 * sin (meanAnomaly jd) + 0.02 * sin (2 * meanAnomaly jd).

Definition obliquityDegrees (jd : R) : R := 23.439 - 0.0000004 * numDays jd.

Definition obliquity (jd : R) : R := obliquityDegrees jd * (PI / 180).

Definition sunDeclination (jd : R) : R :=
  asin (sin (obliquity jd) * sin (eclipticLongitude jd * (PI / 180))) * (180 / PI).

Definition atanRightAscension (jd : R) : R :=
  atan (cos (obliquity jd) * tan (eclipticLongitude jd * (PI / 180))) * (180 / PI).

(** Section 4.4. *)
Definition GMST (jd : R) : R :=
  normalizeAngle (280.46061837 + 360.98564736629 * numDays jd).

Definition GHA (ra jd : R) : R := normalizeAngle (GMST jd - ra).

(** Section 4.5: the composition
    [celestialToGeographic(computeSunCelestialLocation(computeJulianDate(d)),
    computeJulianDate(d))], the Julian date being computed for each of its
    two occurrences. *)
Definition composition (d : JSValue) : Result GeographicLocation :=
  jd1 <- CelestialProjection.computeJulianDate d;;
  c <- CelestialProjection.computeSunCelestialLocation (JSNumber jd1);;
  jd2 <- CelestialProjection.computeJulianDate d;;
  CelestialProjection.celestialToGeographic (JSCelestial c) (JSNumber jd2).

End Spec.

(** The calendar fields of a time value, as the getters return them
    (the month counted from 1). *)
Definition fieldsJulianDate (t : Z) : R :=
  Spec.julianDate (ES.YearFromTime t) (ES.MonthFromTime t + 1) (ES.DateFromTime t)
    (ES.HourFromTime t) (ES.MinFromTime t) (ES.SecFromTime t).

(** The whole UTC second a time value falls in. *)
Definition utcSecond (t : Z) : Z := (t / 1000)%Z.

(** [v instanceof Date] *)
Definition isDate (v : JSValue) : bool :=
  match v with
  | JSDate _ => true
  | _ => false
  end.

(** The test [x >= 90 && x < 270] on a real. *)
Definition inSecondOrThirdQuadrant (x : R) : bool :=
  (if Rle_dec 90 x then true else false) && (if Rlt_dec x 270 then true else false).

(** The day count of [Spec.JD0h] in integer arithmetic: [JD0h + 1524.5]. *)
Definition meeusDayNumber (Y M D : Z) : Z :=
  let Y' := if (M <=? 2)%Z then (Y - 1)%Z else Y in
  let M' := if (M <=? 2)%Z then (M + 12)%Z else M in
  (1461 * (Y' + 4716) / 4 + 306001 * (M' + 1) / 10000 + D
   + (2 - Y' / 100 + Y' / 100 / 4))%Z.

(* ================================================================== *)
(** * Part II -- verification                                          *)
(* ================================================================== *)

Import CelestialProjection.

(** ** Arithmetic on finite numbers *)

Lemma div_Real (x y : R) : y <> 0 -> Num.div (Real x) (Real y) = Real (x / y).
Proof.
  intros Hy. unfold Num.div.
  destruct (Req_dec_T y 0) as [E | _]; [contradiction | reflexivity].
Qed.

Lemma leb_Real (x y : R) : Num.leb (Real x) (Real y) = true <-> x <= y.
Proof.
  unfold Num.leb. destruct (Rle_dec x y); split; intros;
    [assumption | reflexivity | discriminate | contradiction].
Qed.

Lemma asin_Real (x : R) : -1 <= x <= 1 -> Math.asin (Real x) = Real (asin x).
Proof.
  intros [H1 H2]. unfold Math.asin.
  destruct (Rle_dec (-1) x); [| contradiction].
  destruct (Rle_dec x 1); [reflexivity | contradiction].
Qed.

(** Evaluation of the arithmetic of finite numbers. *)
Ltac js_real :=
  repeat first
    [ rewrite div_Real by lra
    | progress cbn [Num.add Num.sub Num.mul Num.neg Num.lift1 Num.lift2
                    Math.floor Math.sin Math.cos Math.tan Math.atan
                    ToNumber eq_null dateField ret bind] ].

(** ** normalizeAngle *)

Lemma normalizeAngle_Real (x : R) :
  normalizeAngle (JSNumber (Real x)) = Ok (Real (Spec.normalizeAngle x)).
Proof.
  unfold normalizeAngle, Spec.normalizeAngle. js_real. reflexivity.
Qed.

Lemma normalizeAngle_NaN : normalizeAngle (JSNumber NaN) = Ok NaN.
Proof. reflexivity. Qed.

(** On a number the call never throws. *)
Lemma normalizeAngle_number (n : Number) :
  exists r, normalizeAngle (JSNumber n) = Ok r.
Proof.
  destruct n as [x |].
  - eexists. apply normalizeAngle_Real.
  - eexists. apply normalizeAngle_NaN.
Qed.

Lemma normalizeAngle_range (x : R) : 0 <= Spec.normalizeAngle x < 360.
Proof.
  unfold Spec.normalizeAngle.
  pose proof (Zfloor_bound (x / 360)) as H. lra.
Qed.

(** Evaluation of [normalizeAngle] once the number of whole turns is known. *)
Lemma normalizeAngle_turns (x : R) (k : Z) :
  360 * IZR k <= x < 360 * IZR k + 360 -> Spec.normalizeAngle x = x - 360 * IZR k.
Proof.
  intros H. unfold Spec.normalizeAngle.
  rewrite (Zfloor_eq k) by lra. lra.
Qed.

(** Section 8, idempotence, in exact arithmetic. *)
Lemma normalizeAngle_idempotent (x : R) :
  Spec.normalizeAngle (Spec.normalizeAngle x) = Spec.normalizeAngle x.
Proof.
  pose proof (normalizeAngle_range x) as H.
  rewrite (normalizeAngle_turns _ 0) by lra. lra.
Qed.

(** Section 8, periodicity, in exact arithmetic. *)
Lemma normalizeAngle_periodic (x : R) (k : Z) :
  Spec.normalizeAngle (x + 360 * IZR k) = Spec.normalizeAngle x.
Proof.
  unfold Spec.normalizeAngle.
  replace ((x + 360 * IZR k) / 360) with (x / 360 + IZR k) by lra.
  rewrite Zfloor_addz, plus_IZR. lra.
Qed.

(** In exact arithmetic, for every real angle [x], [normalizeAngle(x)]
    returns [360 * (x/360 - floor(x/360))]; the result lies in [0, 360) and
    differs from [x] by a whole number of turns (the floor-based modulo),
    also for negative [x]: [normalizeAngle(-90)] is [270]. *)
Theorem normalizeAngle_floor_modulo (x : R) :
  exists r : R,
    normalizeAngle (JSNumber (Real x)) = Ok (Real r)
    /\ r = 360 * (x / 360 - IZR (Zfloor (x / 360)))
    /\ 0 <= r < 360
    /\ (exists k : Z, x = r + 360 * IZR k)
    /\ normalizeAngle (JSNumber (Real (-90))) = Ok (Real 270).
Proof.
  exists (Spec.normalizeAngle x). split; [apply normalizeAngle_Real |].
  split; [reflexivity |]. split; [apply normalizeAngle_range |]. split.
  - exists (Zfloor (x / 360)). unfold Spec.normalizeAngle. lra.
  - rewrite normalizeAngle_Real. do 2 f_equal.
    rewrite (normalizeAngle_turns _ (-1)) by lra. lra.
Qed.

(** ** normalizeAngle and the sidereal time in double arithmetic *)

Section DoubleArithmetic.

Import PrimFloat.
#[local] Open Scope float_scope.

Example Binary64_floor_values :
  Binary64.floor 2.5 = 2 /\ Binary64.floor (-2.5) = -3
  /\ Binary64.floor 7 = 7 /\ Binary64.floor (-7) = -7
  /\ Binary64.floor 0.75 = 0 /\ Binary64.floor (-0.25) = -1
  /\ Binary64.floor (-0x1p-70) = -1
  /\ Binary64.floor 0x1.fffffffffffffp51 = 0x1.ffffffffffffep51
  /\ Binary64.floor 0x1p60 = 0x1p60
  /\ Binary64.floor infinity = infinity /\ Binary64.floor nan = nan.
Proof. repeat split; reflexivity. Qed.

(** On doubles the function is right on the angles of everyday use. *)
Example Binary64_normalizeAngle_values :
  Binary64.normalizeAngle (-90) = 270 /\ Binary64.normalizeAngle 450 = 90
  /\ Binary64.normalizeAngle 360 = 0 /\ Binary64.normalizeAngle 0 = 0
  /\ Binary64.normalizeAngle 359.5 = 359.5.
Proof. repeat split; reflexivity. Qed.

(** C3.  The code does not keep the range the claim states: for the angle
    -2^-70 the quotient [angle / 360] is about -2.4e-24, its floor is -1, the
    difference rounds to 1 and [normalizeAngle] returns exactly 360, which is
    not below 360 (the documentation of the function promises 360.0
    exclusive).  The negative angle -90 is normalized to 270 as the claim
    says. *)
Theorem normalizeAngle_returns_360 :
  Binary64.normalizeAngle (-0x1p-70) = 360
  /\ (Binary64.normalizeAngle (-0x1p-70) <? 360) = false
  /\ Binary64.normalizeAngle (-90) = 270.
Proof. repeat split; reflexivity. Qed.


(** At the epoch J2000.0 the double computation gives a longitude within
    the range. *)
#[warning="-inexact-float"]
Example Binary64_longitude_J2000 :
  let lon := snd (Binary64.celestialToGeographic 0 0 2451545) in
  (-180 <? lon) = true /\ (lon <=? 180) = true.
Proof. split; reflexivity. Qed.

End DoubleArithmetic.

(** ** The calendar of the built-in Date *)

Section Calendar.

Import ES.
#[local] Open Scope Z_scope.

Lemma DayFromYear_succ (y : Z) : DayFromYear (y + 1) = DayFromYear y + DaysInYear y.
Proof.
  unfold DayFromYear, DaysInYear, isLeapYear.
  destruct (Z.eqb_spec (y mod 4) 0), (Z.eqb_spec (y mod 100) 0),
    (Z.eqb_spec (y mod 400) 0);
    cbn [negb]; Z.to_euclidean_division_equations; lia.
Qed.

(** [YearFromDay d] is the year whose days contain [d]: the largest [y]
    with [DayFromYear y <= d], as ECMA-262 defines YearFromTime. *)
Lemma YearFromDay_spec (d : Z) :
  DayFromYear (YearFromDay d) <= d < DayFromYear (YearFromDay d + 1).
Proof.
  unfold YearFromDay.
  set (g := 1970 + d * 400 / 146097).
  assert (Hlo : DayFromYear (g - 1) <= d).
  { unfold DayFromYear, g. Z.to_euclidean_division_equations. lia. }
  assert (Hhi : d < DayFromYear (g + 2)).
  { unfold DayFromYear, g. Z.to_euclidean_division_equations. lia. }
  destruct (Z.leb_spec (DayFromYear (g + 1)) d).
  - replace (g + 1 + 1) with (g + 2) by lia. lia.
  - destruct (Z.leb_spec (DayFromYear g) d).
    + lia.
    + replace (g - 1 + 1) with g by lia. lia.
Qed.

Lemma DayFromYear_mono (y z : Z) : y <= z -> DayFromYear y <= DayFromYear z.
Proof.
  intros H. unfold DayFromYear. Z.to_euclidean_division_equations. lia.
Qed.

Lemma YearFromDay_largest (d y : Z) : DayFromYear y <= d -> y <= YearFromDay d.
Proof.
  intros H. pose proof (YearFromDay_spec d) as [_ Hhi].
  destruct (Z.le_gt_cases y (YearFromDay d)) as [Hle | Hgt]; [exact Hle |].
  pose proof (DayFromYear_mono (YearFromDay d + 1) y ltac:(lia)). lia.
Qed.

Lemma InLeapYear_DaysInYear (t : Z) :
  DaysInYear (YearFromTime t) = 365 + InLeapYear t.
Proof. unfold DaysInYear, InLeapYear. destruct (isLeapYear _); reflexivity. Qed.

Lemma DayWithinYear_range (t : Z) : 0 <= DayWithinYear t < 365 + InLeapYear t.
Proof.
  rewrite <- InLeapYear_DaysInYear.
  unfold DayWithinYear, YearFromTime.
  pose proof (YearFromDay_spec (Day t)) as H.
  rewrite DayFromYear_succ in H. lia.
Qed.

Lemma MonthFromTime_range (t : Z) : 0 <= MonthFromTime t <= 11.
Proof.
  unfold MonthFromTime.
  repeat match goal with
         | |- context [if ?a <? ?b then _ else _] => destruct (Z.ltb_spec a b)
         end; lia.
Qed.

(** The day number of [Spec.JD0h] counts the days of the proleptic
    Gregorian calendar: for the [d]-th day of year [y], which is day [D]
    of month [M], it is the day number of the year's first day plus [d]. *)
Lemma meeus_civil (y d : Z) :
  let l := if isLeapYear y then 1 else 0 in
  0 <= d < 365 + l ->
  forall M D,
    (   (d < 31 /\ M = 1 /\ D = d + 1)
     \/ (31 <= d < 59 + l /\ M = 2 /\ D = d - 30)
     \/ (59 + l <= d < 90 + l /\ M = 3 /\ D = d - 58 - l)
     \/ (90 + l <= d < 120 + l /\ M = 4 /\ D = d - 89 - l)
     \/ (120 + l <= d < 151 + l /\ M = 5 /\ D = d - 119 - l)
     \/ (151 + l <= d < 181 + l /\ M = 6 /\ D = d - 150 - l)
     \/ (181 + l <= d < 212 + l /\ M = 7 /\ D = d - 180 - l)
     \/ (212 + l <= d < 243 + l /\ M = 8 /\ D = d - 211 - l)
     \/ (243 + l <= d < 273 + l /\ M = 9 /\ D = d - 242 - l)
     \/ (273 + l <= d < 304 + l /\ M = 10 /\ D = d - 272 - l)
     \/ (304 + l <= d < 334 + l /\ M = 11 /\ D = d - 303 - l)
     \/ (334 + l <= d /\ M = 12 /\ D = d - 333 - l)) ->
    meeusDayNumber y M D = DayFromYear y + d + 2442112.
Proof.
  intros l Hd M D H.
  unfold meeusDayNumber, DayFromYear.
  subst l. unfold isLeapYear in *.
  destruct (Z.eqb_spec (y mod 4) 0), (Z.eqb_spec (y mod 100) 0),
    (Z.eqb_spec (y mod 400) 0);
    cbn [negb] in *;
    repeat (destruct H as [H | H]); destruct H as (H1 & -> & ->);
    cbn [Z.leb Z.compare Pos.compare Pos.compare_cont Z.add Pos.add Pos.succ];
    Z.to_euclidean_division_equations; lia.
Qed.

Lemma civil_fields (t : Z) :
  meeusDayNumber (YearFromTime t) (MonthFromTime t + 1) (DateFromTime t)
  = Day t + 2442112.
Proof.
  pose proof (DayWithinYear_range t) as Hd.
  rewrite (meeus_civil (YearFromTime t) (DayWithinYear t)).
  - unfold DayWithinYear. lia.
  - fold (InLeapYear t). exact Hd.
  - fold (InLeapYear t).
    unfold DateFromTime, MonthFromTime.
    set (d := DayWithinYear t) in *. set (l := InLeapYear t) in *.
    clearbody d l.
    repeat match goal with
           | |- context [if ?a <? ?b then _ else _] => destruct (Z.ltb_spec a b)
           end; cbv beta iota; lia.
Qed.

Lemma seconds_of_day (t : Z) :
  (t / 1000) mod 86400
  = 3600 * HourFromTime t + 60 * MinFromTime t + SecFromTime t.
Proof.
  unfold HourFromTime, MinFromTime, SecFromTime, msPerHour, msPerMinute, msPerSecond.
  Z.to_euclidean_division_equations. lia.
Qed.

Lemma Day_seconds (t : Z) : Day t = t / 1000 / 86400.
Proof. unfold Day, msPerDay. Z.to_euclidean_division_equations. lia. Qed.

End Calendar.

(** The getters on concrete Dates: the epoch, J2000.0 (2000-01-01T12:00:00Z),
    a leap day (2024-02-29T23:59:59.999Z) and the last millisecond before the
    epoch. *)
Example fields_epoch :
  (ES.YearFromTime 0, ES.MonthFromTime 0, ES.DateFromTime 0,
   ES.HourFromTime 0, ES.MinFromTime 0, ES.SecFromTime 0)
  = (1970, 0, 1, 0, 0, 0)%Z.
Proof. reflexivity. Qed.

Example fields_J2000 :
  (ES.YearFromTime 946728000000, ES.MonthFromTime 946728000000,
   ES.DateFromTime 946728000000, ES.HourFromTime 946728000000,
   ES.MinFromTime 946728000000, ES.SecFromTime 946728000000)
  = (2000, 0, 1, 12, 0, 0)%Z.
Proof. reflexivity. Qed.

Example fields_leap_day :
  (ES.YearFromTime 1709251199999, ES.MonthFromTime 1709251199999,
   ES.DateFromTime 1709251199999, ES.HourFromTime 1709251199999,
   ES.MinFromTime 1709251199999, ES.SecFromTime 1709251199999)
  = (2024, 1, 29, 23, 59, 59)%Z.
Proof. reflexivity. Qed.

Example fields_before_epoch :
  (ES.YearFromTime (-1), ES.MonthFromTime (-1), ES.DateFromTime (-1),
   ES.HourFromTime (-1), ES.MinFromTime (-1), ES.SecFromTime (-1))
  = (1969, 11, 31, 23, 59, 59)%Z.
Proof. reflexivity. Qed.

(** ** computeJulianDate *)

Lemma Zfloor_div (a b : Z) : (0 < b)%Z -> Zfloor (IZR a / IZR b) = (a / b)%Z.
Proof.
  intros Hb. apply Zfloor_eq.
  assert (Hb' : 0 < IZR b) by (apply IZR_lt; assumption).
  pose proof (Z.div_mod a b ltac:(lia)) as E.
  pose proof (Z.mod_pos_bound a b Hb) as Hm.
  assert (Ea : IZR a = IZR b * IZR (a / b) + IZR (a mod b)).
  { rewrite <- mult_IZR, <- plus_IZR. f_equal. exact E. }
  assert (H0 : 0 <= IZR (a mod b)) by (apply IZR_le; lia).
  assert (H1 : IZR (a mod b) < IZR b) by (apply IZR_lt; lia).
  split.
  - apply Rmult_le_reg_r with (IZR b); [assumption |].
    unfold Rdiv. rewrite Rmult_assoc, Rinv_l by lra. nra.
  - apply Rmult_lt_reg_r with (IZR b); [assumption |].
    unfold Rdiv. rewrite Rmult_assoc, Rinv_l by lra. nra.
Qed.

Lemma floor_365_25 (k : Z) : Zfloor (365.25 * IZR k) = (1461 * k / 4)%Z.
Proof.
  rewrite <- (Zfloor_div (1461 * k) 4) by lia. f_equal.
  rewrite mult_IZR. lra.
Qed.

Lemma floor_30_6001 (m : Z) : Zfloor (30.6001 * IZR m) = (306001 * m / 10000)%Z.
Proof.
  rewrite <- (Zfloor_div (306001 * m) 10000) by lia. f_equal.
  rewrite mult_IZR. lra.
Qed.

Lemma JD0h_meeus (Y M D : Z) : (1 <= M <= 12)%Z ->
  Spec.JD0h Y M D = IZR (meeusDayNumber Y M D) - 1524.5.
Proof.
  intros HM. unfold Spec.JD0h, Spec.gregorianCorrection, meeusDayNumber,
    Spec.adjustedYear, Spec.adjustedMonth, Spec.isJanuaryOrFebruary.
  assert (E : ((M =? 1) || (M =? 2))%Z = (M <=? 2)%Z).
  { destruct (Z.eqb_spec M 1), (Z.eqb_spec M 2), (Z.leb_spec M 2);
      cbn; try reflexivity; lia. }
  rewrite E.
  set (Y' := if (M <=? 2)%Z then (Y - 1)%Z else Y).
  set (M' := if (M <=? 2)%Z then (M + 12)%Z else M).
  replace (IZR Y' + 4716) with (IZR (Y' + 4716)) by (rewrite plus_IZR; reflexivity).
  replace (IZR M' + 1) with (IZR (M' + 1)) by (rewrite plus_IZR; reflexivity).
  rewrite floor_365_25, floor_30_6001.
  rewrite (Zfloor_div Y' 100), (Zfloor_div (Y' / 100) 4) by lia.
  rewrite !plus_IZR, minus_IZR. lra.
Qed.

Lemma dayFraction_seconds (t : Z) :
  Spec.dayFraction (ES.HourFromTime t) (ES.MinFromTime t) (ES.SecFromTime t)
  = IZR ((t / 1000) mod 86400) / 86400.
Proof.
  unfold Spec.dayFraction.
  rewrite seconds_of_day, !plus_IZR, !mult_IZR. lra.
Qed.

(** The Julian date of the calendar fields counts the whole seconds since
    the epoch, which is Julian date 2440587.5. *)
Lemma fieldsJulianDate_closed (t : Z) :
  fieldsJulianDate t = 2440587.5 + IZR (utcSecond t) / 86400.
Proof.
  unfold fieldsJulianDate, Spec.julianDate, utcSecond.
  pose proof (MonthFromTime_range t) as HM.
  rewrite JD0h_meeus by lia.
  rewrite civil_fields, dayFraction_seconds, Day_seconds.
  pose proof (Z.div_mod (t / 1000) 86400 ltac:(lia)) as E.
  set (q := (t / 1000)%Z) in *.
  assert (Eq : IZR q = 86400 * IZR (q / 86400) + IZR (q mod 86400)).
  { rewrite <- mult_IZR, <- plus_IZR. f_equal. exact E. }
  rewrite plus_IZR. lra.
Qed.

(** The program on a valid Date computes the specification's formula on the
    fields the getters return. *)
Lemma computeJulianDate_fields (t : Z) :
  computeJulianDate (JSDate (Some t)) = Ok (Real (fieldsJulianDate t)).
Proof.
  pose proof (MonthFromTime_range t) as HM.
  unfold computeJulianDate, fieldsJulianDate, Spec.julianDate, Spec.JD0h,
    Spec.gregorianCorrection, Spec.dayFraction, Spec.adjustedYear, Spec.adjustedMonth,
    getUTCFullYear, getUTCMonth, getUTCDate, getUTCHours, getUTCMinutes, getUTCSeconds.
  js_real.
  match goal with
  | |- context [Num.leb ?a ?b] => destruct (Num.leb a b) eqn:Hle
  end.
  - apply leb_Real in Hle.
    assert (HM0 : (ES.MonthFromTime t + 1 <= 2)%Z).
    { apply le_IZR. rewrite plus_IZR. exact Hle. }
    assert (Ejf : Spec.isJanuaryOrFebruary (ES.MonthFromTime t + 1) = true).
    { unfold Spec.isJanuaryOrFebruary. apply orb_true_iff.
      destruct (Z.eqb_spec (ES.MonthFromTime t + 1) 1),
        (Z.eqb_spec (ES.MonthFromTime t + 1) 2); auto; lia. }
    rewrite Ejf. js_real. rewrite !plus_IZR, !minus_IZR. reflexivity.
  - assert (Hgt : ~ IZR (ES.MonthFromTime t) + 1 <= 2).
    { intros H. apply leb_Real in H. congruence. }
    assert (HM0 : (2 < ES.MonthFromTime t + 1)%Z).
    { apply Z.nle_gt. intros H. apply Hgt. rewrite <- (plus_IZR _ 1).
      apply IZR_le. exact H. }
    assert (Ejf : Spec.isJanuaryOrFebruary (ES.MonthFromTime t + 1) = false).
    { unfold Spec.isJanuaryOrFebruary. apply orb_false_iff.
      destruct (Z.eqb_spec (ES.MonthFromTime t + 1) 1),
        (Z.eqb_spec (ES.MonthFromTime t + 1) 2); auto; lia. }
    rewrite Ejf. js_real. rewrite !plus_IZR. reflexivity.
Qed.

Lemma computeJulianDate_closed (t : Z) :
  computeJulianDate (JSDate (Some t))
  = Ok (Real (2440587.5 + IZR (utcSecond t) / 86400)).
Proof. rewrite computeJulianDate_fields, fieldsJulianDate_closed. reflexivity. Qed.

(** An invalid Date passes the guard; its Julian date is NaN. *)
Lemma computeJulianDate_invalid : computeJulianDate (JSDate None) = Ok NaN.
Proof. reflexivity. Qed.

(** On a Date object the call never throws. *)
Lemma computeJulianDate_Date (d : Date) :
  exists jd, computeJulianDate (JSDate d) = Ok jd.
Proof.
  destruct d as [t |].
  - eexists. apply computeJulianDate_fields.
  - eexists. apply computeJulianDate_invalid.
Qed.

(** Section 8, known value: J2000.0 is Julian date 2451545. *)
Lemma computeJulianDate_J2000 :
  computeJulianDate (JSDate (Some 946728000000%Z)) = Ok (Real 2451545).
Proof.
  rewrite computeJulianDate_closed. do 2 f_equal.
  change (utcSecond 946728000000) with 946728000%Z. lra.
Qed.

(** Section 8: noon and midnight of one day differ by exactly 0.5. *)
Lemma computeJulianDate_noon (day : Z) :
  exists j0 j12,
    computeJulianDate (JSDate (Some (day * 86400000)%Z)) = Ok (Real j0)
    /\ computeJulianDate (JSDate (Some (day * 86400000 + 43200000)%Z)) = Ok (Real j12)
    /\ j12 - j0 = 0.5.
Proof.
  do 2 eexists. split; [apply computeJulianDate_closed |].
  split; [apply computeJulianDate_closed |].
  unfold utcSecond.
  replace (day * 86400000 / 1000)%Z with (day * 86400)%Z
    by (Z.to_euclidean_division_equations; lia).
  replace ((day * 86400000 + 43200000) / 1000)%Z with (day * 86400 + 43200)%Z
    by (Z.to_euclidean_division_equations; lia).
  rewrite plus_IZR, mult_IZR. lra.
Qed.

(** C4.  For every valid Date (time value [t]) [computeJulianDate] returns
    [JD0h + dayFraction], where, with [Y], [M] (1 to 12), [D], [h], [m], [s]
    the UTC fields of the Date, [dayFraction = (h + m/60 + s/3600) / 24],
    the year and month are adjusted by [Y - 1] and [M + 12] when the month is
    January or February, [B = 2 - floor(Y/100) + floor(floor(Y/100)/4)] and
    [JD0h = floor(365.25 (Y + 4716)) + floor(30.6001 (M + 1)) + D + B - 1524.5]. *)
Theorem computeJulianDate_formula (t : Z) :
  let Y := ES.YearFromTime t in
  let M := (ES.MonthFromTime t + 1)%Z in
  let D := ES.DateFromTime t in
  let dayFraction :=
    (IZR (ES.HourFromTime t) + IZR (ES.MinFromTime t) / 60
     + IZR (ES.SecFromTime t) / 3600) / 24 in
  let Y' := IZR (if ((M =? 1) || (M =? 2))%Z then (Y - 1)%Z else Y) in
  let M' := IZR (if ((M =? 1) || (M =? 2))%Z then (M + 12)%Z else M) in
  let B := 2 - IZR (Zfloor (Y' / 100)) + IZR (Zfloor (IZR (Zfloor (Y' / 100)) / 4)) in
  let JD0h := IZR (Zfloor (365.25 * (Y' + 4716)))
              + IZR (Zfloor (30.6001 * (M' + 1))) + IZR D + B - 1524.5 in
  computeJulianDate (JSDate (Some t)) = Ok (Real (JD0h + dayFraction)).
Proof.
  cbv zeta. rewrite computeJulianDate_fields. reflexivity.
Qed.

(** C6, as the specification states it, fails: the Dates with time values 0
    and 1 (1970-01-01T00:00:00.000Z and one millisecond later) are in this
    order, and both have Julian date 2440587.5. *)
Lemma julianDate_not_strictly_monotonic :
  (0 < 1)%Z
  /\ computeJulianDate (JSDate (Some 0%Z)) = Ok (Real 2440587.5)
  /\ computeJulianDate (JSDate (Some 1%Z)) = Ok (Real 2440587.5)
  /\ ~ (2440587.5 < 2440587.5).
Proof.
  split; [lia |].
  split; [| split].
  - rewrite computeJulianDate_closed. do 2 f_equal.
    change (utcSecond 0) with 0%Z. lra.
  - rewrite computeJulianDate_closed. do 2 f_equal.
    change (utcSecond 1) with 0%Z. lra.
  - lra.
Qed.

(** C6, amended.  [computeJulianDate] is strictly monotonic in UTC time at
    the resolution of whole seconds: when the UTC second of [t1] is earlier
    than the UTC second of [t2], the Julian date of [t1] is less than the
    Julian date of [t2]. *)
Theorem julianDate_strictly_monotonic_in_seconds (t1 t2 : Z) :
  (utcSecond t1 < utcSecond t2)%Z ->
  exists j1 j2 : R,
    computeJulianDate (JSDate (Some t1)) = Ok (Real j1)
    /\ computeJulianDate (JSDate (Some t2)) = Ok (Real j2)
    /\ j1 < j2.
Proof.
  intros H. do 2 eexists.
  split; [apply computeJulianDate_closed |].
  split; [apply computeJulianDate_closed |].
  apply IZR_lt in H. lra.
Qed.

Lemma julianDate_strictly_monotonic_in_seconds_witness :
  exists j1 j2 : R,
    computeJulianDate (JSDate (Some 999%Z)) = Ok (Real j1)
    /\ computeJulianDate (JSDate (Some 1000%Z)) = Ok (Real j2)
    /\ j1 < j2.
Proof.
  apply (julianDate_strictly_monotonic_in_seconds 999 1000). reflexivity.
Defined.

(** Without the restriction the Julian date still never decreases. *)
Lemma julianDate_monotonic (t1 t2 : Z) :
  (t1 <= t2)%Z ->
  exists j1 j2 : R,
    computeJulianDate (JSDate (Some t1)) = Ok (Real j1)
    /\ computeJulianDate (JSDate (Some t2)) = Ok (Real j2)
    /\ j1 <= j2.
Proof.
  intros H. do 2 eexists.
  split; [apply computeJulianDate_closed |].
  split; [apply computeJulianDate_closed |].
  assert (Hs : (utcSecond t1 <= utcSecond t2)%Z)
    by (unfold utcSecond; Z.to_euclidean_division_equations; lia).
  apply IZR_le in Hs. lra.
Qed.

(** The order of two Julian dates is the order of the UTC seconds. *)
Lemma julianDate_lt_iff (t1 t2 : Z) (j1 j2 : R) :
  computeJulianDate (JSDate (Some t1)) = Ok (Real j1) ->
  computeJulianDate (JSDate (Some t2)) = Ok (Real j2) ->
  (j1 < j2 <-> (utcSecond t1 < utcSecond t2)%Z).
Proof.
  rewrite !computeJulianDate_closed. intros H1 H2.
  injection H1 as <-. injection H2 as <-.
  split; intros H.
  - apply lt_IZR. lra.
  - apply IZR_lt in H. lra.
Qed.

(** C10.  Two valid Dates that fall within the same UTC second have exactly
    the same Julian date: the milliseconds do not enter the computation. *)
Theorem julianDate_ignores_milliseconds (t1 t2 : Z) :
  utcSecond t1 = utcSecond t2 ->
  computeJulianDate (JSDate (Some t1)) = computeJulianDate (JSDate (Some t2)).
Proof.
  intros H. rewrite !computeJulianDate_closed, H. reflexivity.
Qed.

Lemma julianDate_ignores_milliseconds_witness :
  computeJulianDate (JSDate (Some 946728000000%Z))
  = computeJulianDate (JSDate (Some 946728000999%Z)).
Proof.
  apply (julianDate_ignores_milliseconds 946728000000 946728000999). reflexivity.
Defined.

(** ** Trigonometric bounds *)

Lemma sin_ge_half (x : R) : PI / 6 <= x <= 5 * (PI / 6) -> 1 / 2 <= sin x.
Proof.
  intros [Hlo Hhi]. pose proof PI_RGT_0 as Hpi.
  rewrite <- sin_PI6.
  destruct (Rle_dec x (PI / 2)) as [Hx | Hx].
  - apply sin_incr_1; lra.
  - rewrite <- (sin_PI_x x). apply sin_incr_1; lra.
Qed.

Lemma sin_le_neg_half (x : R) :
  7 * (PI / 6) <= x <= 11 * (PI / 6) -> sin x <= - (1 / 2).
Proof.
  intros [Hlo Hhi].
  assert (H : 1 / 2 <= sin (x - PI)) by (apply sin_ge_half; lra).
  replace x with ((x - PI) + PI) by lra.
  rewrite neg_sin. lra.
Qed.

Lemma sin_ge_sqrt3_2 (x : R) : PI / 3 <= x <= 2 * (PI / 3) -> sqrt 3 / 2 <= sin x.
Proof.
  intros [Hlo Hhi]. pose proof PI_RGT_0 as Hpi.
  rewrite <- sin_PI3.
  destruct (Rle_dec x (PI / 2)) as [Hx | Hx].
  - apply sin_incr_1; lra.
  - rewrite <- (sin_PI_x x). apply sin_incr_1; lra.
Qed.

Lemma sqrt3_2_sqr : sqrt 3 / 2 * (sqrt 3 / 2) = 3 / 4.
Proof.
  assert (H : sqrt 3 * sqrt 3 = 3) by (apply sqrt_sqrt; lra). nra.
Qed.

Lemma sqrt3_2_pos : 0 < sqrt 3 / 2.
Proof.
  assert (H : 0 < sqrt 3) by (apply sqrt_lt_R0; lra). lra.
Qed.

Lemma inv_sqrt2_le : / sqrt 2 <= 3 / 4.
Proof.
  assert (H0 : 0 < sqrt 2) by (apply sqrt_lt_R0; lra).
  assert (H2 : sqrt 2 * sqrt 2 = 2) by (apply sqrt_sqrt; lra).
  assert (H : 4 / 3 <= sqrt 2) by nra.
  apply Rmult_le_reg_r with (sqrt 2); [exact H0 |].
  rewrite Rinv_l by lra. lra.
Qed.

(** [asin] does not decrease. *)
Lemma asin_le (p q : R) : -1 <= p -> p <= q -> q <= 1 -> asin p <= asin q.
Proof.
  intros Hp Hpq Hq.
  destruct (Rle_dec (asin p) (asin q)) as [H | H]; [exact H | exfalso].
  apply Rnot_le_lt in H.
  pose proof (asin_bound p) as Bp. pose proof (asin_bound q) as Bq.
  assert (Hs : sin (asin q) < sin (asin p)) by (apply sin_increasing_1; lra).
  rewrite !sin_asin in Hs by lra. lra.
Qed.

(** Degrees to radians keeps the order. *)
Lemma radians_le (a b : R) : a <= b -> a * (PI / 180) <= b * (PI / 180).
Proof. intros H. pose proof PI_RGT_0. apply Rmult_le_compat_r; lra. Qed.

Lemma sin_mul_bound (a b : R) : -1 <= sin a * sin b <= 1.
Proof.
  pose proof (SIN_bound a). pose proof (SIN_bound b). nra.
Qed.

(** The arc sine of a product of two sines is no larger than either angle. *)
Lemma asin_sin_product_bound (e l : R) : Rabs (asin (sin e * sin l)) <= Rabs e.
Proof.
  pose proof PI_RGT_0 as Hpi.
  pose proof (asin_bound (sin e * sin l)) as Ba.
  destruct (Rle_dec (PI / 2) (Rabs e)) as [Hbig | Hsmall].
  - apply Rabs_le. lra.
  - apply Rnot_le_lt in Hsmall.
    pose proof (Rabs_pos e) as He0.
    pose proof (SIN_bound l) as Bl.
    pose proof (SIN_bound (Rabs e)) as Bs.
    assert (Hs0 : 0 <= sin (Rabs e)) by (apply sin_ge_0; lra).
    assert (Habs : sin e = sin (Rabs e) \/ sin e = - sin (Rabs e)).
    { unfold Rabs. destruct (Rcase_abs e); [right | left];
        [rewrite sin_neg; lra | reflexivity]. }
    assert (Hp : - sin (Rabs e) <= sin e * sin l <= sin (Rabs e))
      by (destruct Habs as [-> | ->]; nra).
    assert (Hup : asin (sin e * sin l) <= Rabs e).
    { rewrite <- (asin_sin (Rabs e)) by lra. apply asin_le; lra. }
    assert (Hdn : - Rabs e <= asin (sin e * sin l)).
    { rewrite <- (asin_sin (- Rabs e)) by lra. rewrite sin_neg. apply asin_le; lra. }
    apply Rabs_le. lra.
Qed.

(** ** computeSunCelestialLocation *)

Lemma inSecondOrThirdQuadrant_iff (x : R) :
  inSecondOrThirdQuadrant x = true <-> 90 <= x < 270.
Proof.
  unfold inSecondOrThirdQuadrant.
  destruct (Rle_dec 90 x), (Rlt_dec x 270); cbn; split; intros;
    try lra; try discriminate; auto.
Qed.

(** The program on a real Julian date, in the specification's quantities. *)
Lemma computeSunCelestialLocation_Real (jd : R) :
  computeSunCelestialLocation (JSNumber (Real jd))
  = Ok {| declination := Real (Spec.sunDeclination jd);
          rightAscension :=
            Real (Spec.normalizeAngle
                    (if inSecondOrThirdQuadrant (Spec.eclipticLongitude jd)
                     then Spec.atanRightAscension jd + 180
                     else Spec.atanRightAscension jd)) |}.
Proof.
  unfold computeSunCelestialLocation. js_real.
  rewrite !normalizeAngle_Real. js_real.
  unfold Angle.DEGREES_TO_RADIANS, Angle.RADIANS_TO_DEGREES. js_real.
  rewrite asin_Real by apply sin_mul_bound. js_real.
  unfold Num.geb, Num.leb, Num.ltb.
  fold (Spec.numDays jd).
  fold (Spec.meanLongitude jd). fold (Spec.meanAnomaly jd).
  fold (Spec.eclipticLongitude jd).
  fold (Spec.obliquityDegrees jd). fold (Spec.obliquity jd).
  fold (Spec.sunDeclination jd). fold (Spec.atanRightAscension jd).
  unfold inSecondOrThirdQuadrant.
  destruct (Rle_dec 90 (Spec.eclipticLongitude jd)),
    (Rlt_dec (Spec.eclipticLongitude jd) 270);
    cbn [andb]; js_real; rewrite normalizeAngle_Real; reflexivity.
Qed.

Lemma meanLongitude_at (jd : R) (k : Z) :
  360 * IZR k <= 280.460 + 0.9856474 * (jd - 2451545) < 360 * IZR k + 360 ->
  Spec.meanLongitude jd = 280.460 + 0.9856474 * (jd - 2451545) - 360 * IZR k.
Proof.
  intros H. unfold Spec.meanLongitude, Spec.numDays. apply normalizeAngle_turns, H.
Qed.

Lemma meanAnomaly_at (jd : R) (k : Z) :
  360 * IZR k <= 357.528 + 0.9856003 * (jd - 2451545) < 360 * IZR k + 360 ->
  Spec.meanAnomaly jd
  = (357.528 + 0.9856003 * (jd - 2451545) - 360 * IZR k) * (PI / 180).
Proof.
  intros H. unfold Spec.meanAnomaly, Spec.numDays. f_equal.
  apply normalizeAngle_turns, H.
Qed.

(** The ecliptic longitude stays within 1.935 degrees of the mean longitude,
    so it lies between -1.935 and 361.935 degrees. *)
Lemma eclipticLongitude_near_mean (jd : R) :
  Spec.meanLongitude jd - 1.935 <= Spec.eclipticLongitude jd
  <= Spec.meanLongitude jd + 1.935.
Proof.
  unfold Spec.eclipticLongitude.
  pose proof (SIN_bound (Spec.meanAnomaly jd)).
  pose proof (SIN_bound (2 * Spec.meanAnomaly jd)). lra.
Qed.

(** At Julian date 2451625.2 (2000-03-20T16:48Z) the ecliptic longitude of
    step 4 is above 360 degrees. *)
Lemma eclipticLongitude_exceeds_360 : 360 < Spec.eclipticLongitude 2451625.2.
Proof.
  pose proof PI_RGT_0 as Hpi.
  unfold Spec.eclipticLongitude.
  rewrite (meanLongitude_at _ 0) by lra.
  rewrite (meanAnomaly_at _ 1) by lra.
  match goal with
  | |- context [1.915 * sin ?g] =>
      assert (Hs : 1 / 2 <= sin g) by (apply sin_ge_half; lra);
      pose proof (SIN_bound (2 * g))
  end.
  lra.
Qed.

(** At Julian date 6424000 it is negative. *)
Lemma eclipticLongitude_negative : Spec.eclipticLongitude 6424000 < 0.
Proof.
  pose proof PI_RGT_0 as Hpi.
  unfold Spec.eclipticLongitude.
  rewrite (meanLongitude_at _ 10877) by lra.
  rewrite (meanAnomaly_at _ 10876) by lra.
  match goal with
  | |- context [1.915 * sin ?g] =>
      assert (Hs : sin g <= - (1 / 2)) by (apply sin_le_neg_half; lra);
      pose proof (SIN_bound (2 * g))
  end.
  lra.
Qed.

(** In exact arithmetic: in [computeSunCelestialLocation], 180 degrees are
    added to the right ascension if and only if the ecliptic longitude of
    step 4 ([meanLongitude + 1.915 sin(meanAnomaly) + 0.02 sin(2 meanAnomaly)],
    not normalized: it is negative for some Julian dates and above 360 for
    others) satisfies [90 <= eclipticLongitude < 270]; the final right
    ascension is the normalized sum, which in exact arithmetic lies in
    [0, 360). *)
Theorem quadrant_correction_before_normalization :
  (forall jd : R,
      let eclipticLongitude :=
        Spec.meanLongitude jd + 1.915 * sin (Spec.meanAnomaly jd)
        + 0.02 * sin (2 * Spec.meanAnomaly jd) in
      exists ra : R,
        computeSunCelestialLocation (JSNumber (Real jd))
        = Ok {| declination := Real (Spec.sunDeclination jd);
                rightAscension := Real ra |}
        /\ (90 <= eclipticLongitude < 270 ->
            ra = Spec.normalizeAngle (Spec.atanRightAscension jd + 180))
        /\ (~ (90 <= eclipticLongitude < 270) ->
            ra = Spec.normalizeAngle (Spec.atanRightAscension jd))
        /\ 0 <= ra < 360)
  /\ (exists jd : R, Spec.eclipticLongitude jd < 0)
  /\ (exists jd : R, 360 < Spec.eclipticLongitude jd).
Proof.
  split; [| split].
  - intros jd ecl. fold (Spec.eclipticLongitude jd) in ecl. subst ecl.
    eexists. split; [apply computeSunCelestialLocation_Real |].
    pose proof (inSecondOrThirdQuadrant_iff (Spec.eclipticLongitude jd)) as Hq.
    split; [| split].
    + intros H. apply Hq in H. rewrite H. reflexivity.
    + intros H. destruct (inSecondOrThirdQuadrant (Spec.eclipticLongitude jd)).
      * exfalso. apply H, Hq. reflexivity.
      * reflexivity.
    + apply normalizeAngle_range.
  - exists 6424000. apply eclipticLongitude_negative.
  - exists 2451625.2. apply eclipticLongitude_exceeds_360.
Qed.

(** At Julian date 2451725 (2000-06-29) the ecliptic longitude is in
    [90, 270) and the 180 degrees are added. *)
Lemma quadrant_correction_before_normalization_witness :
  exists ra : R,
    computeSunCelestialLocation (JSNumber (Real 2451725))
    = Ok {| declination := Real (Spec.sunDeclination 2451725);
            rightAscension := Real ra |}
    /\ ra = Spec.normalizeAngle (Spec.atanRightAscension 2451725 + 180).
Proof.
  destruct (proj1 quadrant_correction_before_normalization 2451725)
    as (ra & Hrun & Hadd & _ & _).
  exists ra. split; [exact Hrun |].
  apply Hadd.
  pose proof (eclipticLongitude_near_mean 2451725) as H.
  rewrite (meanLongitude_at _ 1) in H by lra.
  unfold Spec.eclipticLongitude in H. lra.
Defined.

(** The declination is the specification's
    [asin(sin(obliquity) sin(eclipticLongitude))], and the obliquity bounds
    it. *)
Lemma sunDeclination_le_obliquity (jd : R) :
  Rabs (Spec.sunDeclination jd) <= Rabs (Spec.obliquityDegrees jd).
Proof.
  unfold Spec.sunDeclination.
  pose proof PI_RGT_0 as Hpi.
  pose proof (asin_sin_product_bound (Spec.obliquity jd)
                (Spec.eclipticLongitude jd * (PI / 180))) as H.
  assert (Hk : 0 < 180 / PI) by (apply Rdiv_lt_0_compat; lra).
  rewrite Rabs_mult, (Rabs_pos_eq (180 / PI)) by lra.
  assert (E : Rabs (Spec.obliquityDegrees jd) = Rabs (Spec.obliquity jd) * (180 / PI)).
  { unfold Spec.obliquity. rewrite Rabs_mult, (Rabs_pos_eq (PI / 180)).
    - field. lra.
    - apply Rlt_le, Rdiv_lt_0_compat; lra. }
  rewrite E. apply Rmult_le_compat_r; lra.
Qed.

Lemma sunDeclination_far_past : 45 <= Spec.sunDeclination (-95000000).
Proof.
  pose proof PI_RGT_0 as Hpi.
  pose proof sqrt3_2_sqr as Hq. pose proof sqrt3_2_pos as Hq0.
  pose proof (eclipticLongitude_near_mean (-95000000)) as Hl.
  rewrite (meanLongitude_at _ (-266813)) in Hl by lra.
  unfold Spec.sunDeclination.
  set (l := Spec.eclipticLongitude (-95000000)) in *.
  set (e := Spec.obliquity (-95000000)).
  assert (Hsl : sqrt 3 / 2 <= sin (l * (PI / 180))).
  { apply sin_ge_sqrt3_2.
    pose proof (radians_le 60 l ltac:(lra)).
    pose proof (radians_le l 120 ltac:(lra)). lra. }
  assert (Hse : sqrt 3 / 2 <= sin e).
  { apply sin_ge_sqrt3_2.
    unfold e, Spec.obliquity, Spec.obliquityDegrees, Spec.numDays. lra. }
  pose proof (SIN_bound (l * (PI / 180))) as B1.
  pose proof (SIN_bound e) as B2.
  assert (Hp : 3 / 4 <= sin e * sin (l * (PI / 180)) <= 1) by nra.
  assert (Ha : PI / 4 <= asin (sin e * sin (l * (PI / 180)))).
  { rewrite <- asin_inv_sqrt2. pose proof inv_sqrt2_le as Hi.
    assert (H0 : 0 < / sqrt 2) by (apply Rinv_0_lt_compat, sqrt_lt_R0; lra).
    apply asin_le; lra. }
  apply Rmult_le_reg_r with (PI / 180); [lra |].
  replace (asin (sin e * sin (l * (PI / 180))) * (180 / PI) * (PI / 180))
    with (asin (sin e * sin (l * (PI / 180)))) by (field; lra).
  lra.
Qed.




(** Section 8: the right ascension is always in [0, 360). *)
Lemma rightAscension_range (jd : R) :
  exists (d : Number) (ra : R),
    computeSunCelestialLocation (JSNumber (Real jd))
    = Ok {| declination := d; rightAscension := Real ra |}
    /\ 0 <= ra < 360.
Proof.
  do 2 eexists. split; [apply computeSunCelestialLocation_Real |].
  apply normalizeAngle_range.
Qed.

(** The Julian date of the counterexample is the Julian date of a valid
    Date, whose time value is within the range of the built-in Date. *)
Lemma far_past_is_a_Date :
  ES.validTime (-8418866760000000)
  /\ computeJulianDate (JSDate (Some (-8418866760000000)%Z)) = Ok (Real (-95000000)).
Proof.
  split.
  - unfold ES.validTime, ES.maxTime. lia.
  - rewrite computeJulianDate_closed. do 2 f_equal.
    change (utcSecond (-8418866760000000)) with (-8418866760000)%Z. lra.
Qed.

(** ** celestialToGeographic *)

Lemma longitude_wrap_range (x : R) :
  -180 < x - 360 * IZR (Zceil ((x - 180) / 360)) <= 180.
Proof.
  pose proof (Zceil_bound ((x - 180) / 360)) as H. lra.
Qed.

Lemma normalizedDegreesLongitude_Real (x : R) :
  Angle.normalizedDegreesLongitude (Real x)
  = Real (x - 360 * IZR (Zceil ((x - 180) / 360))).
Proof. reflexivity. Qed.

(** The program on a real right ascension and a real Julian date. *)
Lemma celestialToGeographic_Real (dec : Number) (ra jd : R) :
  celestialToGeographic
    (JSCelestial {| declination := dec; rightAscension := Real ra |})
    (JSNumber (Real jd))
  = Ok {| latitude := JSNumber dec;
          longitude := Angle.normalizedDegreesLongitude (Real (- Spec.GHA ra jd)) |}.
Proof.
  unfold celestialToGeographic.
  cbn [truthy negb eq_null get_rightAscension get_declination
       rightAscension declination].
  js_real. rewrite normalizeAngle_Real. js_real.
  fold (Spec.numDays jd). fold (Spec.GMST jd).
  rewrite normalizeAngle_Real. js_real.
  fold (Spec.GHA ra jd). reflexivity.
Qed.



(** With the range of the hour angle, the longitude is [-GHA] for an hour
    angle below 180 degrees and [360 - GHA] from 180 degrees on. *)
Lemma longitude_of_hour_angle (g : R) :
  0 <= g < 360 ->
  Angle.normalizedDegreesLongitude (Real (- g))
  = Real (if Rlt_dec g 180 then - g else 360 - g).
Proof.
  intros Hg. rewrite normalizedDegreesLongitude_Real. f_equal.
  destruct (Rlt_dec g 180) as [H | H].
  - rewrite (Zceil_eq 0) by lra. lra.
  - rewrite (Zceil_eq (-1)) by lra. lra.
Qed.

(** A declination of 1000 degrees, far outside [-90, 90], is returned as the
    latitude, and so is NaN. *)
Example latitude_1000 :
  exists lon : Number,
    celestialToGeographic
      (JSCelestial {| declination := Real 1000; rightAscension := Real 0 |})
      (JSNumber (Real 2451545))
    = Ok {| latitude := JSNumber (Real 1000); longitude := lon |}.
Proof. eexists. apply celestialToGeographic_Real. Qed.

Example latitude_NaN :
  exists lon : Number,
    celestialToGeographic
      (JSCelestial {| declination := NaN; rightAscension := Real 0 |})
      (JSNumber (Real 2451545))
    = Ok {| latitude := JSNumber NaN; longitude := lon |}.
Proof. eexists. apply celestialToGeographic_Real. Qed.

(** C8.  For every celestial location, whatever its declination (also one
    outside [-90, 90]), and every number given as Julian date, the latitude
    [celestialToGeographic] returns is the declination of the argument,
    unchanged: nothing is transformed, validated or clamped. *)
Theorem latitude_is_declination (c : CelestialLocation) (jd : Number) :
  exists lon : Number,
    celestialToGeographic (JSCelestial c) (JSNumber jd)
    = Ok {| latitude := JSNumber (declination c); longitude := lon |}.
Proof.
  unfold celestialToGeographic.
  cbn [truthy negb eq_null get_rightAscension get_declination ToNumber].
  match goal with
  | |- context [normalizeAngle (JSNumber ?a)] =>
      destruct (normalizeAngle_number a) as [GMST ->]
  end.
  cbn [bind].
  match goal with
  | |- context [normalizeAngle (JSNumber ?a)] =>
      destruct (normalizeAngle_number a) as [GHA ->]
  end.
  cbn [bind ret]. eexists. reflexivity.
Qed.

(** ** computeSunGeographicLocation *)

(** C1.  For every Date [d], [computeSunGeographicLocation(d)] is
    [celestialToGeographic(computeSunCelestialLocation(computeJulianDate(d)),
    computeJulianDate(d))]: the same value is returned, or the same error
    thrown. *)
Theorem computeSunGeographicLocation_is_composition (d : Date) :
  computeSunGeographicLocation (JSDate d) = Spec.composition (JSDate d).
Proof.
  unfold computeSunGeographicLocation, Spec.composition.
  destruct (computeJulianDate_Date d) as [jd ->].
  cbn [bind].
  destruct (computeSunCelestialLocation (JSNumber jd)) as [c | e]; reflexivity.
Qed.

(** On a value that is not a Date the two sides both throw, the orchestrator
    under its own name and the composition under [computeJulianDate]'s. *)
Lemma composition_off_Dates (v : JSValue) :
  isDate v = false ->
  computeSunGeographicLocation v
  = Throw (missing "computeSunGeographicLocation" "missingDate")
  /\ Spec.composition v = Throw (missing "computeJulianDate" "missingDate").
Proof.
  intros H. destruct v; try discriminate H; split; reflexivity.
Qed.

(** The sub-solar point of a valid Date: its latitude is the sun's
    declination and its longitude is in (-180, 180]. *)
Lemma computeSunGeographicLocation_valid (t : Z) :
  exists (jd lat lon : R),
    computeJulianDate (JSDate (Some t)) = Ok (Real jd)
    /\ computeSunGeographicLocation (JSDate (Some t))
       = Ok {| latitude := JSNumber (Real lat); longitude := Real lon |}
    /\ lat = Spec.sunDeclination jd
    /\ -180 < lon <= 180.
Proof.
  exists (2440587.5 + IZR (utcSecond t) / 86400). do 2 eexists.
  split; [apply computeJulianDate_closed |].
  split; [| split; [reflexivity | apply longitude_wrap_range]].
  unfold computeSunGeographicLocation.
  rewrite computeJulianDate_closed. cbn [bind].
  rewrite computeSunCelestialLocation_Real. cbn [bind].
  rewrite celestialToGeographic_Real, normalizedDegreesLongitude_Real.
  reflexivity.
Qed.

(** The sub-solar point of the Date with time value -8418866760000000 is
    more than 45 degrees north of the equator. *)
Lemma subsolar_latitude_far_past :
  exists (lat lon : R),
    computeSunGeographicLocation (JSDate (Some (-8418866760000000)%Z))
    = Ok {| latitude := JSNumber (Real lat); longitude := Real lon |}
    /\ 45 <= lat.
Proof.
  destruct (computeSunGeographicLocation_valid (-8418866760000000))
    as (jd & lat & lon & Hjd & Hrun & Hlat & _).
  rewrite (proj2 far_past_is_a_Date) in Hjd.
  injection Hjd as <-.
  exists lat, lon. split; [exact Hrun |].
  rewrite Hlat. apply sunDeclination_far_past.
Qed.

(** ** Errors *)

(** C9.  Every exported operation throws an ArgumentError when a required
    argument is missing: [null] or [undefined], or not a Date for the two
    functions that take a Date.  The outcome is the error alone; no value is
    returned. *)
Theorem missing_argument_throws :
  (forall v : JSValue, isDate v = false ->
     computeSunGeographicLocation v
     = Throw (missing "computeSunGeographicLocation" "missingDate"))
  /\ (forall v : JSValue, eq_null v = true ->
        computeSunCelestialLocation v
        = Throw (missing "computeSunCelestialLocation" "missingJulianDate"))
  /\ (forall c jd : JSValue, eq_null c = true ->
        celestialToGeographic c jd
        = Throw (missing "celestialToGeographic" "missingCelestialLocation"))
  /\ (forall c jd : JSValue, truthy c = true -> eq_null jd = true ->
        celestialToGeographic c jd
        = Throw (missing "celestialToGeographic" "missingJulianDate"))
  /\ (forall v : JSValue, isDate v = false ->
        computeJulianDate v = Throw (missing "computeJulianDate" "missingDate"))
  /\ (forall v : JSValue, eq_null v = true ->
        normalizeAngle v = Throw (missing "normalizeAngle" "missingAngle")).
Proof.
  repeat split.
  - intros v H. destruct v; try discriminate H; reflexivity.
  - intros v H. unfold computeSunCelestialLocation. rewrite H. reflexivity.
  - intros c jd H. destruct c; try discriminate H; reflexivity.
  - intros c jd Hc Hjd. unfold celestialToGeographic. rewrite Hc, Hjd. reflexivity.
  - intros v H. destruct v; try discriminate H; reflexivity.
  - intros v H. unfold normalizeAngle. rewrite H. reflexivity.
Qed.

Lemma missing_argument_throws_witness :
  computeSunGeographicLocation JSUndefined
  = Throw (missing "computeSunGeographicLocation" "missingDate")
  /\ computeSunCelestialLocation JSNull
     = Throw (missing "computeSunCelestialLocation" "missingJulianDate")
  /\ celestialToGeographic JSUndefined (JSNumber (Real 2451545))
     = Throw (missing "celestialToGeographic" "missingCelestialLocation")
  /\ celestialToGeographic (JSCelestial (mkCelestial (Real 0) (Real 0))) JSNull
     = Throw (missing "celestialToGeographic" "missingJulianDate")
  /\ computeJulianDate (JSNumber (Real 0))
     = Throw (missing "computeJulianDate" "missingDate")
  /\ normalizeAngle JSUndefined = Throw (missing "normalizeAngle" "missingAngle").
Proof.
  destruct missing_argument_throws as (H1 & H2 & H3 & H4 & H5 & H6).
  split; [apply H1; reflexivity |].
  split; [apply H2; reflexivity |].
  split; [apply H3; reflexivity |].
  split; [apply H4; reflexivity |].
  split; [apply H5; reflexivity | apply H6; reflexivity].
Defined.

(** The error names the function that threw and the reason. *)
Example missing_angle_message :
  missing "normalizeAngle" "missingAngle"
  = ArgumentError {| Logger.className := "CelestialProjection";
                     Logger.functionName := "normalizeAngle";
                     Logger.reason := "missingAngle" |}.
Proof. reflexivity. Qed.

(* ================================================================== *)
(** * Part III -- further properties of the code                       *)
(* ================================================================== *)

(** ** computeJulianDate as a count of seconds *)

(** X1.  At UTC midnight the Julian date of a valid Date is the day count
    plus 2440587.5, and at UTC noon it is the day count plus 2440588: a whole
    number at noon, a number ending in .5 at midnight, the two exactly half a
    day apart, for every day the built-in Date can hold. *)
Theorem julianDate_at_midnight_and_noon (d : Z) :
  (-100000000 <= d < 100000000)%Z ->
  computeJulianDate (JSDate (Some (86400000 * d)%Z)) = Ok (Real (IZR d + 2440587.5))
  /\ computeJulianDate (JSDate (Some (86400000 * d + 43200000)%Z))
     = Ok (Real (IZR d + 2440588)).
Proof.
  intros _. rewrite !computeJulianDate_closed. unfold utcSecond.
  replace (86400000 * d / 1000)%Z with (86400 * d)%Z
    by (Z.to_euclidean_division_equations; lia).
  replace ((86400000 * d + 43200000) / 1000)%Z with (86400 * d + 43200)%Z
    by (Z.to_euclidean_division_equations; lia).
  rewrite plus_IZR, mult_IZR. split; do 2 f_equal; lra.
Qed.

Lemma julianDate_at_midnight_and_noon_witness :
  computeJulianDate (JSDate (Some (86400000 * 10957)%Z)) = Ok (Real (IZR 10957 + 2440587.5))
  /\ computeJulianDate (JSDate (Some (86400000 * 10957 + 43200000)%Z))
     = Ok (Real (IZR 10957 + 2440588)).
Proof.
  apply (julianDate_at_midnight_and_noon 10957). lia.
Defined.

(** X3.  Two valid Dates have the same Julian date only when they fall in
    the same UTC second: the Julian date determines the second. *)
Theorem julianDate_determines_second (t1 t2 : Z) :
  computeJulianDate (JSDate (Some t1)) = computeJulianDate (JSDate (Some t2)) ->
  utcSecond t1 = utcSecond t2.
Proof.
  rewrite !computeJulianDate_closed. intros H.
  injection H as H. apply eq_IZR. lra.
Qed.

Lemma julianDate_determines_second_witness : utcSecond 86400000 = utcSecond 86400999.
Proof.
  apply (julianDate_determines_second 86400000 86400999).
  rewrite !computeJulianDate_closed. reflexivity.
Defined.

(** X4.  For every valid Date, [floor(jd + 0.5)] of the Julian date
    returned is the day count [floor(t / 86400000) + 2440588]: all the Dates
    of one UTC day share it, and it steps by one at UTC midnight. *)
Theorem julianDate_day_number (t : Z) :
  ES.validTime t ->
  exists j : R,
    computeJulianDate (JSDate (Some t)) = Ok (Real j)
    /\ Zfloor (j + 0.5) = (ES.Day t + 2440588)%Z.
Proof.
  intros _. eexists. split; [apply computeJulianDate_closed |].
  rewrite Day_seconds. fold (utcSecond t).
  set (q := utcSecond t).
  pose proof (Z.div_mod q 86400 ltac:(lia)) as E.
  pose proof (Z.mod_pos_bound q 86400 ltac:(lia)) as Hm.
  assert (Eq : IZR q = 86400 * IZR (q / 86400) + IZR (q mod 86400)).
  { rewrite <- mult_IZR, <- plus_IZR. f_equal. exact E. }
  assert (H0 : 0 <= IZR (q mod 86400)) by (apply IZR_le; lia).
  assert (H1 : IZR (q mod 86400) < 86400) by (apply IZR_lt; lia).
  apply Zfloor_eq. rewrite plus_IZR. lra.
Qed.

Lemma julianDate_day_number_witness :
  exists j : R,
    computeJulianDate (JSDate (Some 946771199999%Z)) = Ok (Real j)
    /\ Zfloor (j + 0.5) = (ES.Day 946771199999 + 2440588)%Z.
Proof.
  apply (julianDate_day_number 946771199999).
  unfold ES.validTime, ES.maxTime. lia.
Defined.

(** X5.  The Julian date of a valid Date (a time value within 100,000,000
    days of the epoch) lies between -97559412.5 and 102440587.5. *)
Theorem julianDate_of_valid_Date_bounds (t : Z) :
  ES.validTime t ->
  exists j : R,
    computeJulianDate (JSDate (Some t)) = Ok (Real j)
    /\ -97559412.5 <= j <= 102440587.5.
Proof.
  intros [Hlo Hhi]. unfold ES.maxTime in *.
  eexists. split; [apply computeJulianDate_closed |].
  assert (Hq : (-8640000000000 <= utcSecond t <= 8640000000000)%Z)
    by (unfold utcSecond; Z.to_euclidean_division_equations; lia).
  destruct Hq as [Hq1 Hq2]. apply IZR_le in Hq1, Hq2. lra.
Qed.

Lemma julianDate_of_valid_Date_bounds_witness :
  exists j : R,
    computeJulianDate (JSDate (Some 946728000000%Z)) = Ok (Real j)
    /\ -97559412.5 <= j <= 102440587.5.
Proof.
  apply (julianDate_of_valid_Date_bounds 946728000000).
  unfold ES.validTime, ES.maxTime. lia.
Defined.

(** ** When the functions throw *)

Lemma computeSunCelestialLocation_number (n : Number) :
  exists c, computeSunCelestialLocation (JSNumber n) = Ok c.
Proof.
  destruct n as [x |].
  - eexists. apply computeSunCelestialLocation_Real.
  - eexists. reflexivity.
Qed.

(** X8.  On every number, NaN included, [normalizeAngle] and
    [computeSunCelestialLocation] return a value: the three calls of
    [normalizeAngle] inside [computeSunCelestialLocation] are made on numbers
    and never raise the missing-angle error. *)
Theorem numeric_functions_return_on_numbers (n : Number) :
  (exists r : Number, normalizeAngle (JSNumber n) = Ok r)
  /\ (exists c : CelestialLocation, computeSunCelestialLocation (JSNumber n) = Ok c).
Proof.
  split.
  - apply normalizeAngle_number.
  - apply computeSunCelestialLocation_number.
Qed.

Lemma celestialToGeographic_returns (c jd : JSValue) :
  truthy c = true -> eq_null jd = false ->
  exists lon : Number,
    celestialToGeographic c jd
    = Ok {| latitude := get_declination c; longitude := lon |}.
Proof.
  intros Hc Hjd. unfold celestialToGeographic. rewrite Hc, Hjd. cbn [negb].
  match goal with
  | |- context [normalizeAngle (JSNumber ?a)] =>
      destruct (normalizeAngle_number a) as [GMST ->]
  end.
  cbn [bind].
  match goal with
  | |- context [normalizeAngle (JSNumber ?a)] =>
      destruct (normalizeAngle_number a) as [GHA ->]
  end.
  cbn [bind ret]. eexists. reflexivity.
Qed.

(** X9.  [celestialToGeographic] tests its first argument for truthiness,
    not for presence: every falsy value, also the present values [0], [NaN]
    and [false], is rejected as a missing celestial location, whatever the
    Julian date. *)
Theorem falsy_celestialLocation_is_missing (c jd : JSValue) :
  truthy c = false ->
  celestialToGeographic c jd
  = Throw (missing "celestialToGeographic" "missingCelestialLocation").
Proof.
  intros H. unfold celestialToGeographic. rewrite H. reflexivity.
Qed.

Lemma falsy_celestialLocation_is_missing_witness :
  celestialToGeographic (JSBool false) (JSNumber (Real 2451545))
  = Throw (missing "celestialToGeographic" "missingCelestialLocation").
Proof.
  apply (falsy_celestialLocation_is_missing (JSBool false)). reflexivity.
Defined.

(** The numbers [0] and [NaN] are falsy. *)
Example zero_and_NaN_are_falsy :
  truthy (JSNumber (Real 0)) = false /\ truthy (JSNumber NaN) = false.
Proof.
  split; [| reflexivity].
  unfold truthy, Num.truthy.
  destruct (Req_dec_T 0 0) as [_ | H]; [reflexivity | exfalso; apply H; reflexivity].
Qed.

(** X10.  The two functions that take a Date throw exactly on the values
    that are not Date objects; on every Date object, valid or not, they
    return. *)
Theorem date_functions_throw_iff_not_Date (v : JSValue) :
  ((exists e, computeJulianDate v = Throw e) <-> isDate v = false)
  /\ ((exists e, computeSunGeographicLocation v = Throw e) <-> isDate v = false).
Proof.
  destruct v as [| | b | n | d | c];
    try (split; (split; [reflexivity | intros _; eexists; reflexivity])).
  cbn [isDate]. split; (split; [| discriminate]); intros [e He].
  - destruct (computeJulianDate_Date d) as [jd Hjd]. congruence.
  - unfold computeSunGeographicLocation in He.
    destruct (computeJulianDate_Date d) as [jd Hjd]. rewrite Hjd in He. cbn [bind] in He.
    destruct (computeSunCelestialLocation_number jd) as [cl Hcl].
    rewrite Hcl in He. cbn [bind] in He.
    destruct (celestialToGeographic_returns (JSCelestial cl) (JSNumber jd)
                eq_refl eq_refl) as [lon Hr].
    congruence.
Qed.

Lemma date_functions_throw_iff_not_Date_witness :
  (exists e, computeJulianDate (JSNumber (Real 946728000000)) = Throw e)
  /\ (exists e, computeSunGeographicLocation JSNull = Throw e).
Proof.
  split.
  - apply (proj1 (date_functions_throw_iff_not_Date (JSNumber (Real 946728000000)))).
    reflexivity.
  - apply (proj2 (date_functions_throw_iff_not_Date JSNull)). reflexivity.
Defined.

(** X11.  An invalid Date (time value NaN) is not rejected: its Julian date
    is NaN, the celestial location of NaN has NaN for both coordinates, and
    the sub-solar point returned for the invalid Date has latitude NaN. *)
Theorem invalid_Date_propagates_NaN :
  computeJulianDate (JSDate None) = Ok NaN
  /\ computeSunCelestialLocation (JSNumber NaN)
     = Ok {| declination := NaN; rightAscension := NaN |}
  /\ exists lon : Number,
       computeSunGeographicLocation (JSDate None)
       = Ok {| latitude := JSNumber NaN; longitude := lon |}.
Proof.
  split; [reflexivity |]. split; [reflexivity |].
  eexists. reflexivity.
Qed.

(** ** The sun's position *)

Lemma sunDeclination_range (jd : R) : -90 <= Spec.sunDeclination jd <= 90.
Proof.
  unfold Spec.sunDeclination.
  pose proof PI_RGT_0 as Hpi.
  match goal with
  | |- _ <= asin ?p * _ <= _ => pose proof (asin_bound p) as Ha; set (a := asin p) in *
  end.
  assert (E : a * (180 / PI) * (PI / 180) = a) by (field; lra).
  split.
  - apply Rmult_le_reg_r with (PI / 180); [lra |]. rewrite E. lra.
  - apply Rmult_le_reg_r with (PI / 180); [lra |]. rewrite E. lra.
Qed.

(** X12.  For every real Julian date the declination returned lies in
    [-90, 90]: it is a latitude whatever the date. *)
Theorem declination_is_a_latitude (jd : R) :
  exists (d : R) (ra : Number),
    computeSunCelestialLocation (JSNumber (Real jd))
    = Ok {| declination := Real d; rightAscension := ra |}
    /\ -90 <= d <= 90.
Proof.
  do 2 eexists. split; [apply computeSunCelestialLocation_Real |].
  apply sunDeclination_range.
Qed.

Lemma eclipticLongitude_range (jd : R) :
  -1.935 <= Spec.eclipticLongitude jd < 361.935.
Proof.
  pose proof (eclipticLongitude_near_mean jd) as H.
  pose proof (normalizeAngle_range (280.460 + 0.9856474 * Spec.numDays jd)) as HL.
  fold (Spec.meanLongitude jd) in HL. lra.
Qed.

Lemma quadrant_test_of_normalized (jd : R) :
  inSecondOrThirdQuadrant (Spec.normalizeAngle (Spec.eclipticLongitude jd))
  = inSecondOrThirdQuadrant (Spec.eclipticLongitude jd).
Proof.
  pose proof (eclipticLongitude_range jd) as H.
  set (e := Spec.eclipticLongitude jd) in *.
  assert (Hn : Spec.normalizeAngle e = e
               \/ (e < 0 /\ Spec.normalizeAngle e = e + 360)
               \/ (360 <= e /\ Spec.normalizeAngle e = e - 360)).
  { destruct (Rlt_dec e 0) as [Hneg | Hpos].
    - right. left. split; [exact Hneg |].
      rewrite (normalizeAngle_turns e (-1)) by lra. lra.
    - destruct (Rlt_dec e 360) as [Hlt | Hge].
      + left. rewrite (normalizeAngle_turns e 0) by lra. lra.
      + right. right. split; [lra |].
        rewrite (normalizeAngle_turns e 1) by lra. lra. }
  destruct Hn as [-> | [[Hneg ->] | [Hge ->]]]; [reflexivity | |];
    unfold inSecondOrThirdQuadrant;
    repeat match goal with
           | |- context [Rle_dec ?a ?b] => destruct (Rle_dec a b)
           | |- context [Rlt_dec ?a ?b] => destruct (Rlt_dec a b)
           end; cbn [andb]; try reflexivity; lra.
Qed.

(** X13.  The ecliptic longitude tested by the quadrant correction lies
    between -1.935 and 361.935 degrees, and outside [0, 360) it is within
    1.935 degrees of a whole turn: testing the normalized value instead would
    decide the same, so the right ascension returned is also the one computed
    with the test [90 <= normalizeAngle(eclipticLongitude) < 270]. *)
Theorem quadrant_correction_insensitive_to_normalization (jd : R) :
  -1.935 <= Spec.eclipticLongitude jd < 361.935
  /\ computeSunCelestialLocation (JSNumber (Real jd))
     = Ok {| declination := Real (Spec.sunDeclination jd);
             rightAscension :=
               Real (Spec.normalizeAngle
                       (if inSecondOrThirdQuadrant
                             (Spec.normalizeAngle (Spec.eclipticLongitude jd))
                        then Spec.atanRightAscension jd + 180
                        else Spec.atanRightAscension jd)) |}.
Proof.
  split; [apply eclipticLongitude_range |].
  rewrite quadrant_test_of_normalized. apply computeSunCelestialLocation_Real.
Qed.

(** ** Geographic coordinates *)

(** X15.  For every valid Date the sub-solar point has a real latitude, the
    sun's declination at the Julian date of the Date, in [-90, 90]; and for a
    valid Date from time value -12229272000000 on (Julian date 2299045, in
    the year 1582) the latitude is within [-23.5, 23.5]. *)
Theorem subsolar_latitude_bounds (t : Z) :
  exists (jd lat : R) (lon : Number),
    computeJulianDate (JSDate (Some t)) = Ok (Real jd)
    /\ computeSunGeographicLocation (JSDate (Some t))
       = Ok {| latitude := JSNumber (Real lat); longitude := lon |}
    /\ lat = Spec.sunDeclination jd
    /\ -90 <= lat <= 90
    /\ ((-12229272000000 <= t <= ES.maxTime)%Z -> -23.5 <= lat <= 23.5).
Proof.
  destruct (computeSunGeographicLocation_valid t)
    as (jd & lat & lon & Hjd & Hrun & Hlat & _).
  exists jd, lat, (Real lon). split; [exact Hjd |]. split; [exact Hrun |].
  split; [exact Hlat |].
  rewrite computeJulianDate_closed in Hjd. injection Hjd as Hjd.
  split.
  - rewrite Hlat. apply sunDeclination_range.
  - intros [Hlo Hhi]. unfold ES.maxTime in Hhi.
    assert (Hq : (-12229272000 <= utcSecond t <= 8640000000000)%Z)
      by (unfold utcSecond; Z.to_euclidean_division_equations; lia).
    destruct Hq as [Hq1 Hq2]. apply IZR_le in Hq1, Hq2.
    pose proof (sunDeclination_le_obliquity jd) as H.
    unfold Spec.obliquityDegrees, Spec.numDays in H.
    assert (Hb : Rabs (23.439 - 0.0000004 * (jd - 2451545)) <= 23.5)
      by (apply Rabs_le; lra).
    pose proof (Rle_abs (Spec.sunDeclination jd)) as Hu.
    pose proof (Rle_abs (- Spec.sunDeclination jd)) as Hd.
    rewrite Rabs_Ropp in Hd. rewrite Hlat. lra.
Qed.

Lemma subsolar_latitude_bounds_witness :
  exists (lat : R) (lon : Number),
    computeSunGeographicLocation (JSDate (Some 946728000000%Z))
    = Ok {| latitude := JSNumber (Real lat); longitude := lon |}
    /\ -23.5 <= lat <= 23.5.
Proof.
  destruct (subsolar_latitude_bounds 946728000000)
    as (jd & lat & lon & _ & Hrun & _ & _ & H).
  exists lat, lon. split; [exact Hrun |].
  apply H. unfold ES.maxTime. lia.
Defined.
